(** * The HTTP router of the Careerist chatbot backend (backend/app.py)

    The router is glue: four endpoint functions that forward their
    arguments to three collaborators ([process_query],
    [get_session_history], [text_to_speech]) and reshape what comes back.
    The collaborators live in other modules, so they are parameters of the
    development; the endpoint functions are transcribed from the source and
    run in a small monad that threads the state of the outside world, lets
    an exception raised by a collaborator propagate, and logs every
    collaborator call. Around them stands the framework: it binds the
    parameters of a request before an endpoint function runs and answers
    for the exceptions that come out of one. *)

From Stdlib Require Import Strings.String Strings.Byte.
From stdpp Require Import base option list strings gmap.

Open Scope string_scope.

Set Warnings "-register-all".

(** ** Data that crosses the boundary *)

(** A chat message as the router sees it: the attributes [m.type] and
    [m.content] that the list comprehensions read. *)
Record Message := { type : string; content : string }.

(** Modelled from the spec: the class of the object that
    [get_session_history] returns is declared in [session_store], outside
    this file. The router reads its [messages] attribute and, in
    [ask_question], tests its truth value. Python takes an object for true
    unless its class has a [__bool__] that returns False or a [__len__]
    that returns zero. The spec describes a SessionHistory as an ordered
    sequence of ChatMessage and gives it no truth value of its own, so the
    class either defines neither method or has the number of its messages
    for length. [guarded_comprehension_iff] below covers a truth test of
    any other kind. *)
Inductive HistoryClass :=
| PlainObject   (* neither __bool__ nor __len__: always true *)
| SizedHistory. (* __len__ counts the messages *)

Record SessionHistory := { cls : HistoryClass; messages : list Message }.

(** [if st:] on the value returned by [get_session_history]. *)
Definition truthy (st : option SessionHistory) : bool :=
  match st with
  | None => false
  | Some h =>
      match cls h with
      | PlainObject => true
      | SizedHistory => negb (Nat.eqb (length (messages h)) 0)
      end
  end.

(** The Python values the endpoints build: strings, lists and dicts (in
    insertion order). *)
Inductive Value :=
| VStr (s : string)
| VList (l : list Value)
| VDict (d : list (string * Value)).

(** What goes back over HTTP. *)
Inductive Body :=
| JSON (v : Value)
| Bytes (b : list byte)
| ValidationErrors (missing : list string)
| ErrorDetail           (* {"detail": ...} of an HTTPException *)
| InternalServerError.

Record Response := { status_code : nat; media_type : string; body : Body }.

(** [Response(content=..., media_type=...)]: the status defaults to 200. *)
Definition mkResponse (content : list byte) (mt : string) : Response :=
  {| status_code := 200; media_type := mt; body := Bytes content |}.

(** A dict returned by an endpoint is sent as a JSON response, status 200. *)
Definition JSONResponse (v : Value) : Response :=
  {| status_code := 200; media_type := "application/json"; body := JSON v |}.

(** The framework's answer to a request that lacks a field declared
    [Form(...)]: 422, sent before the endpoint function is entered. *)
Definition RequestValidationError (missing : list string) : Response :=
  {| status_code := 422; media_type := "application/json";
     body := ValidationErrors missing |}.

(** The framework's answer when an endpoint function raises an exception
    it has no handler for. *)
Definition ServerError : Response :=
  {| status_code := 500; media_type := "text/plain";
     body := InternalServerError |}.

(** ** Exceptions and the framework's handlers

    [FastAPI()] registers a handler for [HTTPException] and one for
    [RequestValidationError]; an exception of any other class reaches the
    server-error middleware. *)
Inductive ExceptionClass :=
| IsHTTPException (status : nat)
| IsRequestValidationError (errors : list string)
| NotHandled.

Definition is_body_allowed_for_status_code (status : nat) : bool :=
  negb (Nat.ltb status 200 || Nat.eqb status 204 || Nat.eqb status 205
        || Nat.eqb status 304).

(** [http_exception_handler]: the exception's own status, with its detail
    as JSON when that status may carry a body. *)
Definition http_exception_handler (status : nat) : Response :=
  if is_body_allowed_for_status_code status
  then {| status_code := status; media_type := "application/json";
          body := ErrorDetail |}
  else {| status_code := status; media_type := ""; body := Bytes [] |}.

(** The response the client gets for an exception of a given class. *)
Definition exception_response (c : ExceptionClass) : Response :=
  match c with
  | IsHTTPException status => http_exception_handler status
  | IsRequestValidationError errors => RequestValidationError errors
  | NotHandled => ServerError
  end.

(** ** Collaborators and the handler monad *)

(** One entry of the call log. *)
Inductive Call :=
| ProcessQuery (query session_id : string)
| GetSessionHistory (session_id : string)
| TextToSpeech (text lang voice : string).

(** What the router runs against. The three imported functions: each may
    read and change the world (the session store, a model, an audio
    service) and may raise. And two facts the source leaves to its
    surroundings: the class of an exception a collaborator raises, which
    decides the handler the framework answers it with, and whether the
    installed framework rejects an empty value of a required form field
    (newer releases do; older ones pass the empty string on). *)
Record Collaborators (World Exn : Type) := {
  process_query : string -> string -> World -> (Exn + string) * World;
  get_session_history :
    string -> World -> (Exn + option SessionHistory) * World;
  text_to_speech :
    string -> string -> string -> World -> (Exn + list byte) * World;
  exception_class : Exn -> ExceptionClass;
  empty_required_rejected : bool
}.
Arguments process_query {World Exn} _ _ _ _.
Arguments get_session_history {World Exn} _ _ _.
Arguments text_to_speech {World Exn} _ _ _ _ _.
Arguments exception_class {World Exn} _ _.
Arguments empty_required_rejected {World Exn} _.

Record Outcome (World Exn A : Type) := {
  result : Exn + A;
  world : World;
  calls : list Call
}.
Arguments result {World Exn A} _.
Arguments world {World Exn A} _.
Arguments calls {World Exn A} _.

Definition M (World Exn A : Type) : Type := World -> Outcome World Exn A.

Definition ret {World Exn A} (a : A) : M World Exn A :=
  fun w => {| result := inr a; world := w; calls := [] |}.

(** Sequencing. The source has no [try]: an exception ends the handler. *)
Definition bind {World Exn A B}
    (m : M World Exn A) (k : A -> M World Exn B) : M World Exn B :=
  fun w =>
    let o := m w in
    match result o with
    | inl e => {| result := inl e; world := world o; calls := calls o |}
    | inr a =>
        let o' := k a (world o) in
        {| result := result o'; world := world o';
           calls := calls o ++ calls o' |}
    end.

Notation "x <- c ;; k" := (bind c (fun x => k))
  (at level 100, c at next level, right associativity).

(** Calling a collaborator: run it and log the call. *)
Definition invoke {World Exn A}
    (c : Call) (f : World -> (Exn + A) * World) : M World Exn A :=
  fun w => {| result := fst (f w); world := snd (f w); calls := [c] |}.

(** ** Requests and parameter binding *)

(** A request to one of the four routes, with each declared parameter as
    the request carries it: [None] when it is left out, [Some ""] when it
    is sent empty. *)
Inductive Request :=
| GET_root
| GET_history (session_id : option string)
| POST_ask (query session_id : option string)
| POST_tts (text lang voice : option string).

(** The framework reads an empty value of a form field as no value. *)
Definition form_value (v : option string) : option string :=
  match v with
  | Some s => if String.eqb s "" then None else Some s
  | None => None
  end.

(** A field declared [Form(...)]: without a value the request is
    rejected. A framework that does not reject an empty value passes the
    empty string on. *)
Definition required_form (rejects_empty : bool) (v : option string)
  : option string :=
  if rejects_empty then form_value v else v.

(** The endpoint call a request is bound to. *)
Inductive EndpointCall :=
| CallRoot
| CallHistory (session_id : string)
| CallAsk (query session_id : string)
| CallTts (text lang voice : string)
| Rejected (missing : list string).

(** Binding, by the declarations in the source: [session_id] of
    [get_history] is a query parameter with a default, kept as sent;
    [query] and [text] are [Form(...)]; [session_id], [lang] and [voice]
    of the two POST routes are form fields with defaults, which an empty
    value takes too. *)
Definition bind_parameters (rejects_empty : bool) (req : Request)
  : EndpointCall :=
  match req with
  | GET_root => CallRoot
  | GET_history session_id =>
      CallHistory (default "default_session" session_id)
  | POST_ask query session_id =>
      match required_form rejects_empty query with
      | None => Rejected ["query"]
      | Some query =>
          CallAsk query (default "default_session" (form_value session_id))
      end
  | POST_tts text lang voice =>
      match required_form rejects_empty text with
      | None => Rejected ["text"]
      | Some text =>
          CallTts text (default "en" (form_value lang))
                  (default "male" (form_value voice))
      end
  end.

(** The collaborator calls written in the endpoint function a request is
    bound to, in the order of the source lines. A rejected request never
    enters its function. *)
Definition planned_calls (c : EndpointCall) : list Call :=
  match c with
  | CallRoot => []
  | CallHistory session_id => [GetSessionHistory session_id]
  | CallAsk query session_id =>
      [ProcessQuery query session_id; GetSessionHistory session_id]
  | CallTts text lang voice => [TextToSpeech text lang voice]
  | Rejected _ => []
  end.

Section Router.
Context {World Exn : Type} (env : Collaborators World Exn).

Local Abbreviation Handler := (M World Exn).

Definition call_process_query (query session_id : string) : Handler string :=
  invoke (ProcessQuery query session_id) (process_query env query session_id).

Definition call_get_session_history (session_id : string)
  : Handler (option SessionHistory) :=
  invoke (GetSessionHistory session_id) (get_session_history env session_id).

Definition call_text_to_speech (text lang voice : string)
  : Handler (list byte) :=
  invoke (TextToSpeech text lang voice) (text_to_speech env text lang voice).

(** ** The endpoint functions *)

(** [@app.get("/")] *)
Definition root : Handler Value :=
  ret (VDict [("message", VStr "Careerist Chatbot Backend Running")]).

(** [@app.get("/history")] *)
Definition get_history (session_id : string) : Handler Value :=
  chat <- call_get_session_history session_id ;;
  match chat with
  | None => ret (VDict [("chat_history", VList [])])
  | Some chat =>
      ret (VDict [("chat_history",
             VList (map (fun m => VDict [("role", VStr (type m));
                                        ("content", VStr (content m))])
                        (messages chat)))])
  end.

(** [@app.post("/ask")] *)
Definition ask_question (query session_id : string) : Handler Value :=
  answer <- call_process_query query session_id ;;
  st <- call_get_session_history session_id ;;
  let history :=
    if truthy st
    then match st with
         | Some st =>
             map (fun msg => VDict [("role", VStr (type msg));
                                    ("content", VStr (content msg))])
                 (messages st)
         | None => []  (* not reached: None is false *)
         end
    else [] in
  ret (VDict [("answer", VStr answer); ("chat_history", VList history)]).

(** [@app.post("/tts")] *)
Definition tts_endpoint (text lang voice : string) : Handler Response :=
  audio_bytes <- call_text_to_speech text lang voice ;;
  ret (mkResponse audio_bytes "audio/mpeg").

(** ** The application *)

(** Run the endpoint function a request is bound to and wrap a returned
    dict as JSON; a rejected request is answered 422. *)
Definition dispatch (c : EndpointCall) : Handler Response :=
  match c with
  | CallRoot => v <- root ;; ret (JSONResponse v)
  | CallHistory session_id =>
      v <- get_history session_id ;; ret (JSONResponse v)
  | CallAsk query session_id =>
      v <- ask_question query session_id ;; ret (JSONResponse v)
  | CallTts text lang voice => tts_endpoint text lang voice
  | Rejected missing => ret (RequestValidationError missing)
  end.

Definition app (req : Request) : Handler Response :=
  dispatch (bind_parameters (empty_required_rejected env) req).

(** What the client receives: the handler's response, or the
    framework's answer to the exception that came out of it. *)
Definition response_of (o : Outcome World Exn Response) : Response :=
  match result o with
  | inr r => r
  | inl e => exception_response (exception_class env e)
  end.

Definition serve (req : Request) (w : World) : Response :=
  response_of (app req w).

(** The world a request leaves behind. *)
Definition after (req : Request) (w : World) : World := world (app req w).

End Router.

(** ** Observations on responses and on the store *)

(** [d.get(key)] on a dict. *)
Fixpoint dict_get (key : string) (d : list (string * Value)) : option Value :=
  match d with
  | [] => None
  | (k, v) :: d' => if String.eqb k key then Some v else dict_get key d'
  end.

(** The [chat_history] field of a JSON response, when it has one. *)
Definition chat_history_field (r : Response) : option (list Value) :=
  match body r with
  | JSON (VDict d) =>
      match dict_get "chat_history" d with
      | Some (VList l) => Some l
      | _ => None
      end
  | _ => None
  end.

(** One entry of a returned transcript. *)
Definition entry (role text : string) : Value :=
  VDict [("role", VStr role); ("content", VStr text)].

(** A returned transcript holds the stored messages verbatim: one entry
    per message, in the same order, with [role] the message's [type] and
    [content] its [content]. *)
Definition verbatim (msgs : list Message) (items : list Value) : Prop :=
  length items = length msgs /\
  forall i m, msgs !! i = Some m ->
              items !! i = Some (VDict [("role", VStr (type m));
                                        ("content", VStr (content m))]).

(** Requests that reach [process_query]: a [POST /ask] that carries a
    query. *)
Definition reaches_process_query (req : Request) : bool :=
  match req with
  | POST_ask (Some _) _ => true
  | _ => false
  end.

Section Store.
Context {World Exn : Type} (env : Collaborators World Exn).

(** The messages the store holds for a session in a given world, as
    [get_session_history] shows them there: none for a session it does
    not know. *)
Definition stored_messages (session_id : string) (w : World) : list Message :=
  match fst (get_session_history env session_id w) with
  | inr (Some h) => messages h
  | _ => []
  end.

(** The store is append-only: whatever [process_query] and
    [get_session_history] do to the world, every session keeps the
    messages it had, in order, possibly followed by new ones. *)
Definition append_only : Prop :=
  (forall query sid session_id w,
      stored_messages session_id w `prefix_of`
      stored_messages session_id (snd (process_query env query sid w))) /\
  (forall sid session_id w,
      stored_messages session_id w `prefix_of`
      stored_messages session_id (snd (get_session_history env sid w))).

(** [get_session_history] and [text_to_speech] are reads as far as the
    transcripts go: no session's messages differ after the call. *)
Definition lookups_read_only : Prop :=
  (forall sid session_id w,
      stored_messages session_id (snd (get_session_history env sid w)) =
      stored_messages session_id w) /\
  (forall text lang voice session_id w,
      stored_messages session_id (snd (text_to_speech env text lang voice w)) =
      stored_messages session_id w).

(** The transcript [GET /history] returns in a world (empty when the
    request fails). *)
Definition history_transcript (session_id : string) (w : World) : list Value :=
  default [] (chat_history_field (serve env (GET_history (Some session_id)) w)).

(** A run of [POST /ask] requests for one session, one per query. *)
Definition ask_all (session_id : string) (queries : list string) (w : World)
  : World :=
  foldl (fun w q => after env (POST_ask (Some q) (Some session_id)) w)
        w queries.

End Store.

Section Runs.
Context {World Exn : Type} (env : Collaborators World Exn).

(** The world after a run of requests, served one after the other. *)
Definition after_all (reqs : list Request) (w : World) : World :=
  foldl (fun w req => after env req w) w reqs.

(** What [get_session_history] returns for a session in a world: a
    history, [None], or the exception it raises. *)
Definition lookup (session_id : string) (w : World)
  : Exn + option SessionHistory :=
  fst (get_session_history env session_id w).

(** [get_session_history] and [text_to_speech] leave every later lookup
    as it would have been: same history, same [None], same exception. *)
Definition lookups_stable : Prop :=
  (forall sid other w,
      lookup other (snd (get_session_history env sid w)) = lookup other w) /\
  (forall text lang voice other w,
      lookup other (snd (text_to_speech env text lang voice w))
      = lookup other w).

(** [process_query] leaves the lookups of every session but its own as
    they were. *)
Definition sessions_apart : Prop :=
  forall query sid other w,
    sid <> other ->
    lookup other (snd (process_query env query sid w)) = lookup other w.

End Runs.

(** ** An in-memory set of collaborators

    A dictionary from session ids to message lists stands for the store.
    [process_query] records the question and a canned answer and fails on
    the query "crash"; [get_session_history] looks the session up and
    fails for the session "locked"; [text_to_speech] returns the bytes of
    the text and answers any language but English with an HTTP error
    400. *)
Module InMemory.

Abbreviation World := (gmap string (list Message)).

Inductive Error :=
| ValueError
| KeyError
| HTTPError (status : nat).

Definition human (text : string) : Message :=
  {| type := "human"; content := text |}.
Definition ai (text : string) : Message :=
  {| type := "ai"; content := text |}.

Definition process_query (query session_id : string) (w : World)
  : (Error + string) * World :=
  if String.eqb query "crash" then (inl ValueError, w)
  else
    let answer := String.append "You asked: " query in
    (inr answer,
     <[session_id := (default [] (w !! session_id)
                      ++ [human query; ai answer])%list]> w).

Definition get_session_history (session_id : string) (w : World)
  : (Error + option SessionHistory) * World :=
  if String.eqb session_id "locked" then (inl KeyError, w)
  else
    (inr ((fun l => {| cls := PlainObject; messages := l |}) <$> w !! session_id),
     w).

Definition text_to_speech (text lang voice : string) (w : World)
  : (Error + list byte) * World :=
  if String.eqb lang "en" then (inr (list_byte_of_string text), w)
  else (inl (HTTPError 400), w).

Definition class_of (e : Error) : ExceptionClass :=
  match e with
  | HTTPError status => IsHTTPException status
  | _ => NotHandled
  end.

Definition env : Collaborators World Error :=
  Build_Collaborators World Error
    process_query get_session_history text_to_speech class_of true.

(** The same collaborators under a framework that passes an empty
    required field on. *)
Definition lenient_env : Collaborators World Error :=
  Build_Collaborators World Error
    process_query get_session_history text_to_speech class_of false.

(** A store with one session. *)
Definition one_session : World :=
  {[ "s1" := [human "hi"; ai "hello"] ]}.

(** A store whose messages carry roles of its own. *)
Definition odd_roles : World :=
  {[ "s3" := [ {| type := "system"; content := "be brief" |};
               {| type := ""; content := "" |};
               {| type := "tool"; content := "{}" |} ] ]}.

End InMemory.

(** ** Properties of the router *)

Section Properties.
Context {World Exn : Type} (env : Collaborators World Exn).

(** *** Parameter binding *)

Lemma form_value_nonempty (s : string) : s <> "" -> form_value (Some s) = Some s.
Proof.
  intros Hs. cbn. destruct (String.eqb_spec s ""); [contradiction | reflexivity].
Qed.

Lemma required_form_nonempty (rejects_empty : bool) (s : string) :
  s <> "" -> required_form rejects_empty (Some s) = Some s.
Proof.
  intros Hs. unfold required_form.
  destruct rejects_empty; [now apply form_value_nonempty | reflexivity].
Qed.

(** A [POST /ask] is bound to [ask_question] or rejected for [query]. *)
Lemma bind_ask_cases (rejects_empty : bool) (query session_id : option string) :
  (exists q,
      bind_parameters rejects_empty (POST_ask query session_id)
      = CallAsk q (default "default_session" (form_value session_id))) \/
  bind_parameters rejects_empty (POST_ask query session_id)
  = Rejected ["query"].
Proof.
  cbn. destruct (required_form rejects_empty query) as [q|]; eauto.
Qed.

(** A [POST /tts] is bound to [tts_endpoint] or rejected for [text]. *)
Lemma bind_tts_cases (rejects_empty : bool) (text lang voice : option string) :
  (exists t,
      bind_parameters rejects_empty (POST_tts text lang voice)
      = CallTts t (default "en" (form_value lang))
                (default "male" (form_value voice))) \/
  bind_parameters rejects_empty (POST_tts text lang voice)
  = Rejected ["text"].
Proof.
  cbn. destruct (required_form rejects_empty text) as [t|]; eauto.
Qed.

(** *** What the endpoint functions return *)

(** The two list comprehensions agree on whatever the store returned:
    testing [chat is None] or testing the truth of [st] selects the same
    messages. *)
Lemma reshaping_agrees (st : option SessionHistory) :
  (if truthy st
   then match st with
        | Some st =>
            map (fun msg => VDict [("role", VStr (type msg));
                                   ("content", VStr (content msg))])
                (messages st)
        | None => []
        end
   else [])
  = match st with
    | None => []
    | Some chat =>
        map (fun m => VDict [("role", VStr (type m));
                             ("content", VStr (content m))])
            (messages chat)
    end.
Proof.
  destruct st as [[c msgs]|]; [|reflexivity].
  destruct c, msgs; reflexivity.
Qed.

(** For a truth test of any kind, the guarded comprehension of
    [ask_question] returns the whole transcript exactly when the object
    is true or has no messages. Both classes of [HistoryClass] are of
    that kind; a class whose [__bool__] calls a non-empty history false
    would not be. *)
Remark guarded_comprehension_iff (truth : SessionHistory -> bool)
    (h : SessionHistory) :
  (if truth h
   then map (fun msg => entry (type msg) (content msg)) (messages h)
   else [])
  = map (fun m => entry (type m) (content m)) (messages h)
  <-> truth h = true \/ messages h = [].
Proof.
  destruct (truth h); split; intros H.
  - now left.
  - reflexivity.
  - right. destruct (messages h); [reflexivity | discriminate].
  - destruct H as [H|H]; [discriminate | now rewrite H].
Qed.

(** What [get_history] returns, by what the store returned. *)
Lemma get_history_run (session_id : string) (w : World) :
  dispatch env (CallHistory session_id) w =
    {| result :=
         match fst (get_session_history env session_id w) with
         | inl e => inl e
         | inr st =>
             inr (JSONResponse (VDict [("chat_history",
                    VList (match st with
                           | None => []
                           | Some chat =>
                               map (fun m => entry (type m) (content m))
                                   (messages chat)
                           end))]))
         end;
       world := snd (get_session_history env session_id w);
       calls := [GetSessionHistory session_id] |}.
Proof.
  unfold dispatch, get_history, bind, call_get_session_history, invoke; cbn.
  destruct (fst (get_session_history env session_id w)) as [e|[h|]];
    reflexivity.
Qed.

(** What [ask_question] returns, by what the collaborators returned. *)
Lemma ask_question_run (query session_id : string) (w : World) :
  let w1 := snd (process_query env query session_id w) in
  dispatch env (CallAsk query session_id) w =
    match fst (process_query env query session_id w) with
    | inl e =>
        {| result := inl e; world := w1;
           calls := [ProcessQuery query session_id] |}
    | inr answer =>
        {| result :=
             match fst (get_session_history env session_id w1) with
             | inl e => inl e
             | inr st =>
                 inr (JSONResponse (VDict [("answer", VStr answer);
                        ("chat_history",
                         VList (match st with
                                | None => []
                                | Some chat =>
                                    map (fun m => entry (type m) (content m))
                                        (messages chat)
                                end))]))
             end;
           world := snd (get_session_history env session_id w1);
           calls := [ProcessQuery query session_id;
                     GetSessionHistory session_id] |}
    end.
Proof.
  unfold dispatch, ask_question, bind, call_process_query,
    call_get_session_history, invoke; cbn.
  destruct (fst (process_query env query session_id w)) as [e|answer];
    [reflexivity|]. cbn.
  destruct (fst (get_session_history env session_id _)) as [e|st];
    [reflexivity|]. cbn.
  rewrite reshaping_agrees. reflexivity.
Qed.

(** What [tts_endpoint] returns, by what the synthesizer returned. *)
Lemma tts_run (text lang voice : string) (w : World) :
  dispatch env (CallTts text lang voice) w =
    {| result :=
         match fst (text_to_speech env text lang voice w) with
         | inl e => inl e
         | inr audio => inr (mkResponse audio "audio/mpeg")
         end;
       world := snd (text_to_speech env text lang voice w);
       calls := [TextToSpeech text lang voice] |}.
Proof.
  unfold dispatch, tts_endpoint, bind, call_text_to_speech, invoke; cbn.
  destruct (fst (text_to_speech env text lang voice w)); reflexivity.
Qed.

(** No answer to an exception carries a [chat_history]. *)
Lemma exception_response_no_history (c : ExceptionClass) :
  chat_history_field (exception_response c) = None.
Proof.
  destruct c as [status|errors|]; try reflexivity.
  cbn. unfold http_exception_handler.
  destruct (is_body_allowed_for_status_code status); reflexivity.
Qed.

(** What [GET /history] answers, by what the store returned. *)
Lemma serve_history (session_id : option string) (w : World) :
  serve env (GET_history session_id) w =
    match fst (get_session_history env
                 (default "default_session" session_id) w) with
    | inl e => exception_response (exception_class env e)
    | inr st =>
        JSONResponse (VDict [("chat_history",
          VList (match st with
                 | None => []
                 | Some chat =>
                     map (fun m => entry (type m) (content m))
                         (messages chat)
                 end))])
    end.
Proof.
  unfold serve, app. cbn [bind_parameters]. rewrite get_history_run.
  unfold response_of; cbn [result].
  destruct (fst (get_session_history env _ w)); reflexivity.
Qed.

(** *** The claims *)

(** C4. [GET /] answers 200 with the fixed object
    [{"message": "Careerist Chatbot Backend Running"}] in every world; it
    calls no collaborator and leaves the world as it is. *)
Theorem root_constant (w : World) :
  serve env GET_root w =
    {| status_code := 200; media_type := "application/json";
       body := JSON (VDict [("message",
                             VStr "Careerist Chatbot Backend Running")]) |}
  /\ calls (app env GET_root w) = []
  /\ after env GET_root w = w.
Proof. repeat split. Qed.

(** C3. When [get_session_history] returns [None] for the session,
    [GET /history] answers 200 with [{"chat_history": []}]: an empty
    list, no error. *)
Theorem history_unknown_session (session_id : option string) (w : World) :
  fst (get_session_history env (default "default_session" session_id) w)
    = inr None ->
  status_code (serve env (GET_history session_id) w) = 200 /\
  body (serve env (GET_history session_id) w)
    = JSON (VDict [("chat_history", VList [])]).
Proof.
  intros Hnone. rewrite serve_history, Hnone. split; reflexivity.
Qed.


(** C7. A [POST /ask] without the required field [query] is answered
    with a client error (a 4xx status, not 500), and [process_query] is
    not called: no collaborator is. *)
Theorem ask_without_query (session_id : option string) (w : World) :
  let o := app env (POST_ask None session_id) w in
  result o = inr (RequestValidationError ["query"]) /\
  400 <= status_code (response_of env o) < 500 /\
  calls o = [] /\
  world o = w.
Proof.
  unfold app. cbn [bind_parameters].
  assert (Hnone : required_form (empty_required_rejected env) None = None)
    by (unfold required_form; now destruct (empty_required_rejected env)).
  rewrite Hnone. cbn. repeat split; lia.
Qed.

(** C8. An omitted optional field takes its declared default:
    [session_id] is "default_session" on [GET /history] and on
    [POST /ask], [lang] is "en" and [voice] is "male" on [POST /tts]; the
    request without the field is handled exactly as the request that
    carries the default. *)
Theorem omitted_fields_take_defaults :
  (forall w, app env (GET_history None) w
             = app env (GET_history (Some "default_session")) w) /\
  (forall query w,
      app env (POST_ask query None) w
      = app env (POST_ask query (Some "default_session")) w) /\
  (forall text voice w,
      app env (POST_tts text None voice) w
      = app env (POST_tts text (Some "en") voice) w) /\
  (forall text lang w,
      app env (POST_tts text lang None) w
      = app env (POST_tts text lang (Some "male")) w) /\
  (forall w, calls (app env (GET_history None) w)
             = [GetSessionHistory "default_session"]) /\
  (forall query w,
      query <> "" ->
      calls (app env (POST_ask (Some query) None) w) !! 0
      = Some (ProcessQuery query "default_session")) /\
  (forall text w,
      text <> "" ->
      calls (app env (POST_tts (Some text) None None) w)
      = [TextToSpeech text "en" "male"]).
Proof.
  repeat apply conj; try reflexivity.
  - intros w. unfold app. cbn [bind_parameters]. now rewrite get_history_run.
  - intros query w Hquery. unfold app. cbn [bind_parameters].
    rewrite (required_form_nonempty _ _ Hquery). cbn [form_value default].
    pose proof (ask_question_run query "default_session" w) as Hrun.
    cbn zeta in Hrun. rewrite Hrun.
    destruct (fst (process_query env query "default_session" w)); reflexivity.
  - intros text w Htext. unfold app. cbn [bind_parameters].
    rewrite (required_form_nonempty _ _ Htext). cbn [form_value default].
    now rewrite tts_run.
Qed.

(** With a session id that is not sent empty, [POST /ask] looks up the
    session [GET /history] looks up. *)
Lemma ask_bound_session (rejects_empty : bool) (query session_id : option string)
    (q sid : string) :
  session_id <> Some "" ->
  bind_parameters rejects_empty (POST_ask query session_id) = CallAsk q sid ->
  sid = default "default_session" session_id.
Proof.
  intros Hsid Hbound.
  destruct (bind_ask_cases rejects_empty query session_id) as [[q' Hq]|Hq];
    rewrite Hq in Hbound; [|discriminate].
  injection Hbound as _ <-.
  destruct session_id as [s|]; [|reflexivity].
  rewrite form_value_nonempty; [reflexivity | congruence].
Qed.

(** C1, as amended. The [chat_history] that [POST /ask] returns equals
    the one a following [GET /history] returns for the session the
    question was bound to, whenever the store shows [GET /history] what it
    showed [POST /ask]: the test [chat is None] of the one and the truth
    test of the other select the same list. That session is the one the
    request names, unless it sends the session id empty: then it is
    "default_session". [q] and [sid] are the arguments the request is
    bound to. *)
Theorem ask_history_matches_history
    (query session_id : option string) (w : World) (q sid answer : string) :
  let w1 := snd (process_query env q sid w) in
  let w2 := after env (POST_ask query session_id) w in
  bind_parameters (empty_required_rejected env) (POST_ask query session_id)
    = CallAsk q sid ->
  fst (process_query env q sid w) = inr answer ->
  fst (get_session_history env sid w2) = fst (get_session_history env sid w1) ->
  chat_history_field (serve env (POST_ask query session_id) w)
  = chat_history_field (serve env (GET_history (Some sid)) w2) /\
  (session_id <> Some "" ->
   chat_history_field (serve env (POST_ask query session_id) w)
   = chat_history_field (serve env (GET_history session_id) w2)).
Proof.
  intros w1 w2 Hbound Hanswer Hsame.
  assert (Hsid : chat_history_field (serve env (POST_ask query session_id) w)
                 = chat_history_field (serve env (GET_history (Some sid)) w2)).
  { rewrite serve_history.
    change (default "default_session" (Some sid)) with sid. rewrite Hsame.
    unfold serve, app. rewrite Hbound.
    pose proof (ask_question_run q sid w) as Hrun. cbn zeta in Hrun.
    rewrite Hanswer in Hrun. fold w1 in Hrun. rewrite Hrun.
    unfold response_of; cbn [result].
    destruct (fst (get_session_history env sid w1)) as [e|st];
      [|reflexivity].
    now rewrite exception_response_no_history. }
  split; [exact Hsid|].
  intros Hne. rewrite Hsid, !serve_history.
  now rewrite (ask_bound_session _ _ _ _ _ Hne Hbound).
Qed.

Lemma verbatim_map (msgs : list Message) :
  verbatim msgs (map (fun m => entry (type m) (content m)) msgs).
Proof.
  split.
  - apply length_map.
  - intros i m Hm. change (map ?f msgs) with (f <$> msgs).
    rewrite list_lookup_fmap, Hm. reflexivity.
Qed.

(** C10. The router neither checks nor rewrites a transcript: for the
    messages the store holds, [GET /history] and the [chat_history] of
    [POST /ask] return one object per message, in the store's order, with
    [role] and [content] copied from [type] and [content], whatever the
    role string is. For [POST /ask], [query] and [session_id] are the
    arguments the request is bound to. *)
Theorem transcript_passes_through (session_id : string)
    (h : SessionHistory) :
  (forall w,
      fst (get_session_history env session_id w) = inr (Some h) ->
      exists items,
        chat_history_field (serve env (GET_history (Some session_id)) w)
          = Some items /\
        verbatim (messages h) items) /\
  (forall req query answer w,
      bind_parameters (empty_required_rejected env) req
        = CallAsk query session_id ->
      fst (process_query env query session_id w) = inr answer ->
      fst (get_session_history env session_id
             (snd (process_query env query session_id w))) = inr (Some h) ->
      exists items,
        chat_history_field (serve env req w) = Some items /\
        verbatim (messages h) items).
Proof.
  split.
  - intros w Hh. rewrite serve_history.
    change (default "default_session" (Some session_id)) with session_id.
    rewrite Hh.
    eexists; split; [reflexivity | apply verbatim_map].
  - intros req query answer w Hbound Hanswer Hh. unfold serve, app.
    rewrite Hbound.
    pose proof (ask_question_run query session_id w) as Hrun.
    cbn zeta in Hrun. rewrite Hanswer in Hrun. rewrite Hrun.
    unfold response_of; cbn [result]. rewrite Hh.
    eexists; split; [reflexivity | apply verbatim_map].
Qed.

(** C6, as amended. The router catches nothing. When [process_query] or
    [text_to_speech] raises, that exception is the outcome of the
    handler and the failed call is the last one made: it is not repeated
    and no other collaborator is called after it. The same holds when
    [get_session_history] raises in [/ask]. The client gets the
    framework's answer to the exception: the generic 500 for a class the
    framework has no handler for. *)
Theorem collaborator_exception_propagates (e : Exn) (w : World) :
  (forall req query session_id,
      bind_parameters (empty_required_rejected env) req
        = CallAsk query session_id ->
      fst (process_query env query session_id w) = inl e ->
      let o := app env req w in
      result o = inl e /\
      calls o = [ProcessQuery query session_id] /\
      world o = snd (process_query env query session_id w) /\
      response_of env o = exception_response (exception_class env e) /\
      (exception_class env e = NotHandled -> response_of env o = ServerError))
  /\
  (forall req query session_id answer,
      bind_parameters (empty_required_rejected env) req
        = CallAsk query session_id ->
      fst (process_query env query session_id w) = inr answer ->
      fst (get_session_history env session_id
             (snd (process_query env query session_id w))) = inl e ->
      let o := app env req w in
      result o = inl e /\
      calls o = [ProcessQuery query session_id;
                 GetSessionHistory session_id] /\
      response_of env o = exception_response (exception_class env e) /\
      (exception_class env e = NotHandled -> response_of env o = ServerError))
  /\
  (forall req text lang voice,
      bind_parameters (empty_required_rejected env) req
        = CallTts text lang voice ->
      fst (text_to_speech env text lang voice w) = inl e ->
      let o := app env req w in
      result o = inl e /\
      calls o = [TextToSpeech text lang voice] /\
      world o = snd (text_to_speech env text lang voice w) /\
      response_of env o = exception_response (exception_class env e) /\
      (exception_class env e = NotHandled -> response_of env o = ServerError)).
Proof.
  split; [|split].
  - intros req query session_id Hbound Hraise o. subst o.
    unfold app. rewrite Hbound.
    pose proof (ask_question_run query session_id w) as Hrun.
    cbn zeta in Hrun. rewrite Hraise in Hrun. rewrite Hrun.
    unfold response_of; cbn [result calls world].
    repeat split. now intros ->.
  - intros req query session_id answer Hbound Hanswer Hraise o. subst o.
    unfold app. rewrite Hbound.
    pose proof (ask_question_run query session_id w) as Hrun.
    cbn zeta in Hrun. rewrite Hanswer in Hrun. rewrite Hrun.
    unfold response_of; cbn [result calls]. rewrite Hraise.
    repeat split. now intros ->.
  - intros req text lang voice Hbound Hraise o. subst o.
    unfold app. rewrite Hbound, tts_run.
    unfold response_of; cbn [result calls world]. rewrite Hraise.
    repeat split. now intros ->.
Qed.

(** C9. [GET /history] and [POST /tts] write to no transcript. Each makes
    one collaborator call, the lookup or the synthesis, and leaves the
    world that call leaves; with lookups that are reads, every session
    holds after the request the messages it held before. Only a request
    that reaches [process_query], a [POST /ask], can change one. *)
Theorem history_and_tts_write_nothing :
  (forall session_id w,
      calls (app env (GET_history session_id) w)
        = [GetSessionHistory (default "default_session" session_id)] /\
      after env (GET_history session_id) w
        = snd (get_session_history env
                 (default "default_session" session_id) w)) /\
  (forall req text lang voice w,
      bind_parameters (empty_required_rejected env) req
        = CallTts text lang voice ->
      calls (app env req w) = [TextToSpeech text lang voice] /\
      after env req w = snd (text_to_speech env text lang voice w)) /\
  (lookups_read_only env ->
   forall req session_id w,
     reaches_process_query req = false ->
     stored_messages env session_id (after env req w)
     = stored_messages env session_id w).
Proof.
  assert (Hhist : forall session_id w,
    calls (app env (GET_history session_id) w)
      = [GetSessionHistory (default "default_session" session_id)] /\
    after env (GET_history session_id) w
      = snd (get_session_history env
               (default "default_session" session_id) w)).
  { intros session_id w. unfold after, app. cbn [bind_parameters].
    rewrite get_history_run. split; reflexivity. }
  assert (Htts : forall req text lang voice w,
    bind_parameters (empty_required_rejected env) req
      = CallTts text lang voice ->
    calls (app env req w) = [TextToSpeech text lang voice] /\
    after env req w = snd (text_to_speech env text lang voice w)).
  { intros req text lang voice w Hbound. unfold after, app.
    rewrite Hbound, tts_run. split; reflexivity. }
  repeat apply conj; [exact Hhist | exact Htts |].
  intros [Hlookup Hspeech] req session_id w Hreq.
  destruct req as [|sid|[query|] sid|text lang voice]; try discriminate.
  - reflexivity.
  - destruct (Hhist sid w) as [_ ->]. apply Hlookup.
  - unfold after, app.
    destruct (bind_ask_cases (empty_required_rejected env) None sid)
      as [[q Hq]|Hq]; rewrite Hq; [|reflexivity].
    revert Hq. cbn. unfold required_form.
    destruct (empty_required_rejected env); discriminate.
  - destruct (bind_tts_cases (empty_required_rejected env) text lang voice)
      as [[t Ht]|Ht].
    + destruct (Htts _ _ _ _ w Ht) as [_ ->]. apply Hspeech.
    + unfold after, app. rewrite Ht. reflexivity.
Qed.

(** [ask_question] only extends what the store holds for a session. *)
Lemma ask_question_extends (query sid session_id : string) (w : World) :
  append_only env ->
  stored_messages env session_id w `prefix_of`
  stored_messages env session_id (world (dispatch env (CallAsk query sid) w)).
Proof.
  intros [Hquery Hlookup].
  pose proof (ask_question_run query sid w) as Hrun. cbn zeta in Hrun.
  rewrite Hrun.
  destruct (fst (process_query env query sid w)); cbn [world].
  - apply Hquery.
  - etrans; [apply (Hquery query sid) | apply Hlookup].
Qed.

(** One [POST /ask] only extends what the store holds for a session. *)
Lemma ask_extends (query sid : option string) (session_id : string)
    (w : World) :
  append_only env ->
  stored_messages env session_id w `prefix_of`
  stored_messages env session_id (after env (POST_ask query sid) w).
Proof.
  intros Happend. unfold after, app.
  destruct (bind_ask_cases (empty_required_rejected env) query sid)
    as [[q Hq]|Hq]; rewrite Hq.
  - now apply ask_question_extends.
  - reflexivity.
Qed.

Lemma ask_all_extends (sid session_id : string) (queries : list string)
    (w : World) :
  append_only env ->
  stored_messages env session_id w `prefix_of`
  stored_messages env session_id (ask_all env sid queries w).
Proof.
  intros Happend. revert w.
  induction queries as [|q queries IH]; intros w; cbn.
  - reflexivity.
  - etrans; [apply (ask_extends (Some q) (Some sid)) | apply IH].
    exact Happend.
Qed.

Lemma ask_all_app (sid : string) (queries more : list string) (w : World) :
  ask_all env sid (queries ++ more) w
  = ask_all env sid more (ask_all env sid queries w).
Proof. unfold ask_all. apply foldl_app. Qed.

(** [GET /history] returns one entry per stored message. *)
Lemma history_transcript_stored (session_id : string) (w : World) :
  history_transcript env session_id w
  = map (fun m => entry (type m) (content m))
        (stored_messages env session_id w).
Proof.
  unfold history_transcript, stored_messages.
  rewrite serve_history.
  change (default "default_session" (Some session_id)) with session_id.
  destruct (fst (get_session_history env session_id w)) as [e|[h|]];
    try reflexivity.
  now rewrite exception_response_no_history.
Qed.

(** C2. With an append-only store, the transcript [GET /history] returns
    for a session never gets shorter as [POST /ask] requests for that
    session follow one another: after any run of them it is at most as
    long as after any longer run. *)
Theorem history_length_monotone :
  append_only env ->
  forall (session_id : string) (queries more : list string) (w : World),
    length (history_transcript env session_id
              (ask_all env session_id queries w))
    <= length (history_transcript env session_id
                 (ask_all env session_id (queries ++ more) w)).
Proof.
  intros Happend session_id queries more w.
  rewrite !history_transcript_stored, !length_map, ask_all_app.
  apply prefix_length, ask_all_extends, Happend.
Qed.

End Properties.

(** ** Further properties of the endpoint functions *)

Section Further.
Context {World Exn : Type} (env : Collaborators World Exn).

(** X1. When [process_query] and the lookup that follows it both return,
    [POST /ask] answers 200 with exactly two fields: [answer], the string
    [process_query] returned, and [chat_history], the messages the store
    holds for the session once [process_query] has run. [query] and [sid]
    are the arguments the request is bound to. *)
Theorem ask_answer_and_history
    (req : Request) (query sid : string) (w : World)
    (answer : string) (st : option SessionHistory) :
  let w1 := snd (process_query env query sid w) in
  bind_parameters (empty_required_rejected env) req = CallAsk query sid ->
  fst (process_query env query sid w) = inr answer ->
  fst (get_session_history env sid w1) = inr st ->
  serve env req w =
    JSONResponse
      (VDict [("answer", VStr answer);
              ("chat_history",
               VList (map (fun m => entry (type m) (content m))
                          (stored_messages env sid w1)))]).
Proof.
  intros w1 Hbound Hanswer Hst. unfold serve, app. rewrite Hbound.
  pose proof (ask_question_run env query sid w) as Hrun. cbn zeta in Hrun.
  rewrite Hanswer in Hrun. fold w1 in Hrun. rewrite Hrun.
  unfold response_of, stored_messages; cbn [result]. rewrite Hst.
  destruct st; reflexivity.
Qed.

(** X4. [GET /history] catches nothing either: when
    [get_session_history] raises, that exception is the outcome of the
    handler, the lookup is the only call made, and the client gets the
    framework's answer to the exception, which carries no transcript: the
    generic 500 for a class the framework has no handler for. *)
Theorem history_exception_propagates
    (session_id : option string) (e : Exn) (w : World) :
  let sid := default "default_session" session_id in
  fst (get_session_history env sid w) = inl e ->
  let o := app env (GET_history session_id) w in
  result o = inl e /\
  calls o = [GetSessionHistory sid] /\
  world o = snd (get_session_history env sid w) /\
  response_of env o = exception_response (exception_class env e) /\
  (exception_class env e = NotHandled -> response_of env o = ServerError) /\
  chat_history_field (response_of env o) = None.
Proof.
  intros sid Hraise o. subst o. unfold app. cbn [bind_parameters]. fold sid.
  rewrite get_history_run. unfold response_of; cbn [result calls world].
  rewrite Hraise. repeat split.
  - now intros ->.
  - apply exception_response_no_history.
Qed.

(** X5. The collaborator calls of a request are the ones written in the
    endpoint function it is bound to, in order and with the bound
    arguments: the log is a prefix of the plan, the whole plan when the
    handler returns, and cut after the failing call when it raises. No
    call is repeated or added, so a request makes at most two. *)
Theorem calls_follow_plan (req : Request) (w : World) :
  let plan := planned_calls
                (bind_parameters (empty_required_rejected env) req) in
  calls (app env req w) `prefix_of` plan /\
  (forall r, result (app env req w) = inr r -> calls (app env req w) = plan) /\
  (forall e, result (app env req w) = inl e -> calls (app env req w) <> []) /\
  length (calls (app env req w)) <= 2.
Proof.
  assert (Hroute : forall (o : Outcome World Exn Response) plan,
            calls o `prefix_of` plan ->
            (forall r, result o = inr r -> calls o = plan) ->
            calls o <> [] \/ (exists r, result o = inr r) ->
            length plan <= 2 ->
            calls o `prefix_of` plan /\
            (forall r, result o = inr r -> calls o = plan) /\
            (forall e, result o = inl e -> calls o <> []) /\
            length (calls o) <= 2).
  { intros o plan Hpre Hall Hsome Hlen. repeat apply conj; try assumption.
    - intros e He. destruct Hsome as [Hne|[r Hr]]; [exact Hne | congruence].
    - apply prefix_length in Hpre. lia. }
  cbn zeta. unfold app.
  destruct (bind_parameters (empty_required_rejected env) req)
    as [|sid|query sid|text lang voice|missing].
  - apply Hroute; cbn; [reflexivity | reflexivity | right; eauto | lia].
  - rewrite get_history_run.
    apply Hroute; cbn; [reflexivity | reflexivity | now left | lia].
  - pose proof (ask_question_run env query sid w) as Hrun.
    cbn zeta in Hrun. rewrite Hrun.
    destruct (fst (process_query env query sid w)) as [e|answer].
    + apply Hroute; cbn; [by eexists [_] | discriminate | now left | lia].
    + apply Hroute; cbn; [reflexivity | reflexivity | now left | lia].
  - rewrite tts_run.
    apply Hroute; cbn; [reflexivity | reflexivity | now left | lia].
  - apply Hroute; cbn; [reflexivity | reflexivity | right; eauto | lia].
Qed.

(** The lookups after [ask_question], whatever its outcome, when a lookup
    changes none. *)
Lemma ask_question_lookups (query sid other : string) (w : World) :
  lookups_stable env ->
  lookup env other (world (dispatch env (CallAsk query sid) w))
  = lookup env other (snd (process_query env query sid w)).
Proof.
  intros [Hlookup _].
  pose proof (ask_question_run env query sid w) as Hrun. cbn zeta in Hrun.
  rewrite Hrun.
  destruct (fst (process_query env query sid w)); cbn [world];
    [reflexivity | apply Hlookup].
Qed.

(** X6. When lookups change nothing a later lookup returns, what the
    store shows for any session after [POST /ask] is what it shows after
    the one [process_query] call of that request, no more and no less,
    also when the request ends in an error: nothing is rolled back.
    [query] and [sid] are the arguments the request is bound to. *)
Theorem ask_writes_what_process_query_writes :
  lookups_stable env ->
  forall (req : Request) (query sid other : string) (w : World),
    bind_parameters (empty_required_rejected env) req = CallAsk query sid ->
    lookup env other (after env req w)
    = lookup env other (snd (process_query env query sid w)).
Proof.
  intros Hstable req query sid other w Hbound.
  unfold after, app. rewrite Hbound. now apply ask_question_lookups.
Qed.

(** X7. Sessions are kept apart: when [process_query] changes the
    lookups of its own session only, a [POST /ask] bound to one session
    leaves the response of [GET /history] for every other session as it
    was. *)
Theorem ask_leaves_other_sessions :
  sessions_apart env -> lookups_stable env ->
  forall (req : Request) (query sid other : string) (w : World),
    bind_parameters (empty_required_rejected env) req = CallAsk query sid ->
    sid <> other ->
    serve env (GET_history (Some other)) (after env req w)
    = serve env (GET_history (Some other)) w.
Proof.
  intros Hapart Hstable req query sid other w Hbound Hne.
  rewrite !serve_history.
  change (default "default_session" (Some other)) with other.
  change (fst (get_session_history env other ?v)) with (lookup env other v).
  unfold after, app. rewrite Hbound.
  rewrite (ask_question_lookups _ _ _ _ Hstable).
  now rewrite (Hapart query sid other w Hne).
Qed.

(** One request, of any kind, only extends what the store holds. *)
Lemma request_extends (req : Request) (session_id : string) (w : World) :
  append_only env -> lookups_read_only env ->
  stored_messages env session_id w `prefix_of`
  stored_messages env session_id (after env req w).
Proof.
  intros [Hquery Hextend] [Hlookup Hspeech]. unfold after, app.
  destruct (bind_parameters (empty_required_rejected env) req)
    as [|sid|query sid|text lang voice|missing].
  - reflexivity.
  - rewrite get_history_run. cbn [world]. now rewrite Hlookup.
  - pose proof (ask_question_run env query sid w) as Hrun.
    cbn zeta in Hrun. rewrite Hrun.
    destruct (fst (process_query env query sid w)); cbn [world].
    + apply Hquery.
    + etrans; [apply (Hquery query sid) | apply Hextend].
  - rewrite tts_run. cbn [world]. now rewrite Hspeech.
  - reflexivity.
Qed.

(** [GET /history] shows the stored messages, one entry each. *)
Lemma history_shows_stored (session_id : string) (w : World) :
  history_transcript env session_id w
  = map (fun m => entry (type m) (content m))
        (stored_messages env session_id w).
Proof.
  unfold history_transcript, stored_messages. rewrite serve_history.
  change (default "default_session" (Some session_id)) with session_id.
  destruct (fst (get_session_history env session_id w)) as [e|[h|]];
    try reflexivity.
  now rewrite exception_response_no_history.
Qed.

(** X8. With an append-only store and lookups that are reads, whatever
    [GET /history] returns for a session stays the beginning of what it
    returns after any run of requests, of any route and for any session:
    entries are added at the end, never dropped, changed or reordered. *)
Theorem history_grows_by_appending :
  append_only env -> lookups_read_only env ->
  forall (reqs : list Request) (session_id : string) (w : World),
    history_transcript env session_id w `prefix_of`
    history_transcript env session_id (after_all env reqs w).
Proof.
  intros Happend Hread reqs session_id w.
  rewrite !history_shows_stored.
  assert (Hstored : stored_messages env session_id w `prefix_of`
                    stored_messages env session_id (after_all env reqs w)).
  { revert w. induction reqs as [|req reqs IH]; intros w; cbn.
    - reflexivity.
    - etrans; [apply (request_extends req session_id w Happend Hread)
              | apply IH]. }
  destruct Hstored as [more ->]. rewrite map_app. now eexists.
Qed.

(** A request that does not reach [process_query] leaves every lookup as
    it was, when the lookups are stable. *)
Lemma quiet_request (req : Request) (session_id : string) (w : World) :
  lookups_stable env ->
  reaches_process_query req = false ->
  lookup env session_id (after env req w) = lookup env session_id w.
Proof.
  intros [Hlookup Hspeech] Hquiet. unfold after, app.
  destruct req as [|sid|[query|] sid|text lang voice]; try discriminate.
  - reflexivity.
  - cbn [bind_parameters]. rewrite get_history_run. apply Hlookup.
  - destruct (bind_ask_cases (empty_required_rejected env) None sid)
      as [[q Hq]|Hq]; rewrite Hq; [|reflexivity].
    revert Hq. cbn. unfold required_form.
    destruct (empty_required_rejected env); discriminate.
  - destruct (bind_tts_cases (empty_required_rejected env) text lang voice)
      as [[t Ht]|Ht]; rewrite Ht.
    + rewrite tts_run. apply Hspeech.
    + reflexivity.
Qed.

(** X9. When lookups and speech synthesis change nothing a later lookup
    returns, any run of requests none of which reaches [process_query]
    ([GET /], [GET /history], [POST /tts], [POST /ask] without a query)
    leaves the whole response of [GET /history], status and body, for
    every session as it was. *)
Theorem quiet_runs_keep_history :
  lookups_stable env ->
  forall (reqs : list Request) (session_id : option string) (w : World),
    forallb (fun req => negb (reaches_process_query req)) reqs = true ->
    serve env (GET_history session_id) (after_all env reqs w)
    = serve env (GET_history session_id) w.
Proof.
  intros Hstable reqs session_id w Hquiet.
  rewrite !serve_history.
  change (fst (get_session_history env ?s ?v)) with (lookup env s v).
  assert (Hsame : lookup env (default "default_session" session_id)
                    (after_all env reqs w)
                  = lookup env (default "default_session" session_id) w).
  { revert w. induction reqs as [|req reqs IH]; intros w.
    - reflexivity.
    - cbn [forallb] in Hquiet. apply andb_prop in Hquiet as [Hreq Hreqs].
      change (after_all env (req :: reqs) w)
        with (after_all env reqs (after env req w)).
      rewrite (IH Hreqs). apply quiet_request; [exact Hstable|].
      now apply negb_true_iff in Hreq. }
  now rewrite Hsame.
Qed.

End Further.

(** ** The in-memory collaborators satisfy the assumptions *)

Section InMemoryFacts.
Lemma in_memory_lookup (session_id : string) (w : InMemory.World) :
  lookup InMemory.env session_id w
  = if String.eqb session_id "locked" then inl InMemory.KeyError
    else inr ((fun l => {| cls := PlainObject; messages := l |})
              <$> w !! session_id).
Proof.
  unfold lookup; cbn. unfold InMemory.get_session_history.
  destruct (String.eqb session_id "locked"); reflexivity.
Qed.

Lemma in_memory_stored (session_id : string) (w : InMemory.World) :
  stored_messages InMemory.env session_id w
  = if String.eqb session_id "locked" then []
    else default [] (w !! session_id).
Proof.
  unfold stored_messages; cbn. unfold InMemory.get_session_history.
  destruct (String.eqb session_id "locked"); [reflexivity|]. cbn.
  destruct (w !! session_id); reflexivity.
Qed.

Lemma in_memory_lookup_keeps_world (sid : string) (w : InMemory.World) :
  snd (get_session_history InMemory.env sid w) = w.
Proof.
  cbn. unfold InMemory.get_session_history.
  destruct (String.eqb sid "locked"); reflexivity.
Qed.

Lemma in_memory_speech_keeps_world (text lang voice : string) (w : InMemory.World) :
  snd (text_to_speech InMemory.env text lang voice w) = w.
Proof.
  cbn. unfold InMemory.text_to_speech.
  destruct (String.eqb lang "en"); reflexivity.
Qed.

Lemma in_memory_append_only : append_only InMemory.env.
Proof.
  split.
  - intros query sid session_id w. rewrite !in_memory_stored.
    destruct (String.eqb session_id "locked"); [reflexivity|].
    cbn. unfold InMemory.process_query.
    destruct (String.eqb query "crash"); cbn; [reflexivity|].
    destruct (decide (sid = session_id)) as [->|Hne].
    + rewrite lookup_insert_eq. cbn. now apply prefix_app_r.
    + now rewrite lookup_insert_ne.
  - intros sid session_id w. now rewrite in_memory_lookup_keeps_world.
Qed.

Lemma in_memory_lookups_read_only : lookups_read_only InMemory.env.
Proof.
  split.
  - intros sid session_id w. now rewrite in_memory_lookup_keeps_world.
  - intros text lang voice session_id w.
    now rewrite in_memory_speech_keeps_world.
Qed.

Lemma in_memory_lookups_stable : lookups_stable InMemory.env.
Proof.
  split.
  - intros sid other w. now rewrite in_memory_lookup_keeps_world.
  - intros text lang voice other w. now rewrite in_memory_speech_keeps_world.
Qed.

Lemma in_memory_sessions_apart : sessions_apart InMemory.env.
Proof.
  intros query sid other w Hne. rewrite !in_memory_lookup.
  destruct (String.eqb other "locked"); [reflexivity|].
  cbn. unfold InMemory.process_query.
  destruct (String.eqb query "crash"); cbn; [reflexivity|].
  now rewrite lookup_insert_ne.
Qed.

End InMemoryFacts.

(** ** The claims at work on the in-memory collaborators *)

(** One question asked in session "s1": the transcript in the answer is
    the one [GET /history] shows next. *)
Lemma ask_history_matches_history_witness :
  let ask := POST_ask (Some "jobs?") (Some "s1") in
  let w := InMemory.one_session in
  bind_parameters true ask = CallAsk "jobs?" "s1" /\
  fst (process_query InMemory.env "jobs?" "s1" w) = inr "You asked: jobs?" /\
  chat_history_field (serve InMemory.env ask w)
  = chat_history_field
      (serve InMemory.env (GET_history (Some "s1")) (after InMemory.env ask w)).
Proof.
  split; [reflexivity|]. split; [reflexivity|].
  destruct (ask_history_matches_history InMemory.env (Some "jobs?")
              (Some "s1") InMemory.one_session "jobs?" "s1"
              "You asked: jobs?") as [_ Hsame];
    [reflexivity | reflexivity | vm_compute; reflexivity |].
  apply Hsame. discriminate.
Defined.

(** With the session id sent empty, [POST /ask] works on
    "default_session" and returns its transcript, while [GET /history]
    looks up the session "" in the world the question left and finds
    none. *)
Lemma ask_history_differ_at_empty_session_id :
  chat_history_field
    (serve InMemory.env (POST_ask (Some "jobs?") (Some ""))
       InMemory.one_session)
    = Some [entry "human" "jobs?"; entry "ai" "You asked: jobs?"] /\
  chat_history_field
    (serve InMemory.env (GET_history (Some ""))
       (after InMemory.env (POST_ask (Some "jobs?") (Some ""))
          InMemory.one_session))
    = Some [] /\
  chat_history_field
    (serve InMemory.env (POST_ask (Some "jobs?") (Some ""))
       InMemory.one_session)
  <> chat_history_field
       (serve InMemory.env (GET_history (Some ""))
          (after InMemory.env (POST_ask (Some "jobs?") (Some ""))
             InMemory.one_session)).
Proof.
  repeat split; try (vm_compute; reflexivity).
  vm_compute. discriminate.
Qed.

(** Three questions, then two more: the transcript does not shrink. *)
Lemma history_length_monotone_witness :
  append_only InMemory.env /\
  length (history_transcript InMemory.env "s1"
            (ask_all InMemory.env "s1" ["a"; "b"; "c"] InMemory.one_session))
  <= length (history_transcript InMemory.env "s1"
               (ask_all InMemory.env "s1" (["a"; "b"; "c"] ++ ["d"; ""])
                  InMemory.one_session)).
Proof.
  split; [exact in_memory_append_only|].
  apply (history_length_monotone InMemory.env in_memory_append_only
           "s1" ["a"; "b"; "c"] ["d"; ""] InMemory.one_session).
Defined.

(** Session "s2" was never seen. *)
Lemma history_unknown_session_witness :
  fst (get_session_history InMemory.env "s2" InMemory.one_session) = inr None /\
  status_code (serve InMemory.env (GET_history (Some "s2")) InMemory.one_session)
    = 200 /\
  body (serve InMemory.env (GET_history (Some "s2")) InMemory.one_session)
    = JSON (VDict [("chat_history", VList [])]).
Proof.
  split; [vm_compute; reflexivity|].
  apply (history_unknown_session InMemory.env (Some "s2") InMemory.one_session).
  vm_compute; reflexivity.
Defined.


(** The query "crash" makes [process_query] raise, the session "locked"
    makes [get_session_history] raise, both with exceptions the framework
    has no handler for; the language "fr" makes [text_to_speech] raise an
    HTTP error. *)
Lemma collaborator_exception_propagates_witness :
  let w := InMemory.one_session in
  (let o := app InMemory.env (POST_ask (Some "crash") (Some "s1")) w in
   result o = inl InMemory.ValueError /\
   calls o = [ProcessQuery "crash" "s1"] /\
   world o = w /\
   response_of InMemory.env o = ServerError) /\
  (let o := app InMemory.env (POST_ask (Some "jobs?") (Some "locked")) w in
   result o = inl InMemory.KeyError /\
   calls o = [ProcessQuery "jobs?" "locked"; GetSessionHistory "locked"] /\
   response_of InMemory.env o = ServerError) /\
  (let o := app InMemory.env (POST_tts (Some "hi") (Some "fr") (Some "")) w in
   result o = inl (InMemory.HTTPError 400) /\
   calls o = [TextToSpeech "hi" "fr" "male"] /\
   response_of InMemory.env o = http_exception_handler 400).
Proof.
  intros w. split; [|split].
  - destruct (proj1 (collaborator_exception_propagates InMemory.env
                       InMemory.ValueError w)
                (POST_ask (Some "crash") (Some "s1")) "crash" "s1")
      as (Hresult & Hcalls & Hworld & _ & Hserver);
      [reflexivity | reflexivity |].
    cbn zeta.
    split; [exact Hresult | split; [exact Hcalls | split]];
      [reflexivity | now apply Hserver].
  - destruct (proj1 (proj2 (collaborator_exception_propagates InMemory.env
                              InMemory.KeyError w))
                (POST_ask (Some "jobs?") (Some "locked")) "jobs?" "locked"
                "You asked: jobs?")
      as (Hresult & Hcalls & _ & Hserver);
      [reflexivity | reflexivity | vm_compute; reflexivity |].
    cbn zeta.
    split; [exact Hresult | split; [exact Hcalls | now apply Hserver]].
  - destruct (proj2 (proj2 (collaborator_exception_propagates InMemory.env
                              (InMemory.HTTPError 400) w))
                (POST_tts (Some "hi") (Some "fr") (Some "")) "hi" "fr" "male")
      as (Hresult & Hcalls & _ & Hresponse & _);
      [reflexivity | reflexivity |].
    cbn zeta.
    split; [exact Hresult | split; [exact Hcalls | exact Hresponse]].
Defined.

(** A language the synthesizer rejects with an HTTP error 400: the
    exception leaves the handler, and the client gets a 400, not the
    generic 500. *)
Lemma handled_exception_is_not_500 :
  fst (text_to_speech InMemory.env "hi" "fr" "male" InMemory.one_session)
    = inl (InMemory.HTTPError 400) /\
  result (app InMemory.env (POST_tts (Some "hi") (Some "fr") None)
            InMemory.one_session) = inl (InMemory.HTTPError 400) /\
  status_code (serve InMemory.env (POST_tts (Some "hi") (Some "fr") None)
                 InMemory.one_session) = 400 /\
  serve InMemory.env (POST_tts (Some "hi") (Some "fr") None)
    InMemory.one_session <> ServerError.
Proof. repeat split. discriminate. Qed.

Lemma omitted_fields_take_defaults_witness :
  "jobs?" <> "" /\
  calls (app InMemory.env (POST_ask (Some "jobs?") None) InMemory.one_session)
    !! 0 = Some (ProcessQuery "jobs?" "default_session") /\
  calls (app InMemory.env (POST_tts (Some "jobs?") None None)
           InMemory.one_session)
  = [TextToSpeech "jobs?" "en" "male"].
Proof.
  assert (Hne : "jobs?" <> "") by discriminate.
  split; [exact Hne|]. split.
  - apply (proj1 (proj2 (proj2 (proj2 (proj2 (proj2
             (omitted_fields_take_defaults InMemory.env)))))) "jobs?"
             InMemory.one_session Hne).
  - apply (proj2 (proj2 (proj2 (proj2 (proj2 (proj2
             (omitted_fields_take_defaults InMemory.env)))))) "jobs?"
             InMemory.one_session Hne).
Defined.

Lemma history_and_tts_write_nothing_witness :
  let w := InMemory.one_session in
  lookups_read_only InMemory.env /\
  calls (app InMemory.env (POST_tts (Some "hi") (Some "") None) w)
  = [TextToSpeech "hi" "en" "male"] /\
  stored_messages InMemory.env "s1"
    (after InMemory.env (GET_history (Some "s1")) w)
  = stored_messages InMemory.env "s1" w /\
  stored_messages InMemory.env "s1"
    (after InMemory.env (POST_tts (Some "hi") None None) w)
  = stored_messages InMemory.env "s1" w.
Proof.
  intros w. split; [exact in_memory_lookups_read_only|]. split; [|split].
  - apply (proj1 (proj2 (history_and_tts_write_nothing InMemory.env))
             (POST_tts (Some "hi") (Some "") None) "hi" "en" "male" w).
    reflexivity.
  - apply (proj2 (proj2 (history_and_tts_write_nothing InMemory.env))
             in_memory_lookups_read_only (GET_history (Some "s1")) "s1" w).
    reflexivity.
  - apply (proj2 (proj2 (history_and_tts_write_nothing InMemory.env))
             in_memory_lookups_read_only (POST_tts (Some "hi") None None)
             "s1" w).
    reflexivity.
Defined.

(** [POST /ask] does write: the session holds two more messages. *)
Example ask_writes :
  stored_messages InMemory.env "s1"
    (after InMemory.env (POST_ask (Some "jobs?") (Some "s1"))
       InMemory.one_session)
  = [InMemory.human "hi"; InMemory.ai "hello";
     InMemory.human "jobs?"; InMemory.ai "You asked: jobs?"].
Proof. vm_compute. reflexivity. Qed.

(** An empty query is rejected by a framework that rejects empty required
    fields and reaches [process_query] under one that does not. *)
Example empty_query_by_framework :
  serve InMemory.env (POST_ask (Some "") None) InMemory.one_session
    = RequestValidationError ["query"] /\
  calls (app InMemory.lenient_env (POST_ask (Some "") None)
           InMemory.one_session)
    = [ProcessQuery "" "default_session";
       GetSessionHistory "default_session"].
Proof. split; vm_compute; reflexivity. Qed.

Lemma transcript_passes_through_witness :
  let h := {| cls := PlainObject;
              messages := [ {| type := "system"; content := "be brief" |};
                            {| type := ""; content := "" |};
                            {| type := "tool"; content := "{}" |} ] |} in
  fst (get_session_history InMemory.env "s3" InMemory.odd_roles)
    = inr (Some h) /\
  (exists items,
    chat_history_field
      (serve InMemory.env (GET_history (Some "s3")) InMemory.odd_roles)
      = Some items /\
    verbatim (messages h) items) /\
  (exists items,
    chat_history_field
      (serve InMemory.env (POST_ask (Some "q") (Some "s3")) InMemory.odd_roles)
      = Some items /\
    verbatim (messages h ++ [InMemory.human "q"; InMemory.ai "You asked: q"])
             items).
Proof.
  intros h. split; [vm_compute; reflexivity|]. split.
  - apply (proj1 (transcript_passes_through InMemory.env "s3" h)
             InMemory.odd_roles).
    vm_compute; reflexivity.
  - apply (proj2 (transcript_passes_through InMemory.env "s3"
                {| cls := PlainObject;
                   messages := messages h ++ [InMemory.human "q";
                                              InMemory.ai "You asked: q"] |})
                (POST_ask (Some "q") (Some "s3")) "q" "You asked: q"
                InMemory.odd_roles);
      vm_compute; reflexivity.
Defined.

(** ** The further properties on the in-memory collaborators *)

(** A question sent with an empty session id is answered from
    "default_session". *)
Lemma ask_answer_and_history_witness :
  let req := POST_ask (Some "jobs?") (Some "") in
  let w := InMemory.one_session in
  let w1 := snd (process_query InMemory.env "jobs?" "default_session" w) in
  bind_parameters true req = CallAsk "jobs?" "default_session" /\
  serve InMemory.env req w
  = JSONResponse
      (VDict [("answer", VStr "You asked: jobs?");
              ("chat_history",
               VList (map (fun m => entry (type m) (content m))
                          (stored_messages InMemory.env "default_session"
                             w1)))]).
Proof.
  intros req w w1. split; [reflexivity|].
  apply (ask_answer_and_history InMemory.env req "jobs?" "default_session" w
           "You asked: jobs?"
           (Some {| cls := PlainObject;
                    messages := [InMemory.human "jobs?";
                                 InMemory.ai "You asked: jobs?"] |}));
    vm_compute; reflexivity.
Defined.

Lemma history_exception_propagates_witness :
  let o := app InMemory.env (GET_history (Some "locked"))
             InMemory.one_session in
  fst (get_session_history InMemory.env "locked" InMemory.one_session)
    = inl InMemory.KeyError /\
  result o = inl InMemory.KeyError /\
  calls o = [GetSessionHistory "locked"] /\
  response_of InMemory.env o = ServerError /\
  chat_history_field (response_of InMemory.env o) = None.
Proof.
  intros o. split; [reflexivity|].
  destruct (history_exception_propagates InMemory.env (Some "locked")
              InMemory.KeyError InMemory.one_session)
    as (Hresult & Hcalls & _ & _ & Hserver & Hnone); [reflexivity|].
  split; [exact Hresult | split; [exact Hcalls | split]];
    [now apply Hserver | exact Hnone].
Defined.

(** An [/ask] whose lookup fails made both calls and no third. *)
Lemma calls_follow_plan_witness :
  let req := POST_ask (Some "jobs?") (Some "locked") in
  result (app InMemory.env req InMemory.one_session)
    = inl InMemory.KeyError /\
  calls (app InMemory.env req InMemory.one_session) <> [] /\
  calls (app InMemory.env req InMemory.one_session)
    `prefix_of` [ProcessQuery "jobs?" "locked"; GetSessionHistory "locked"].
Proof.
  intros req. split; [vm_compute; reflexivity|]. split.
  - apply (proj1 (proj2 (proj2 (calls_follow_plan InMemory.env req
                                  InMemory.one_session))) InMemory.KeyError).
    vm_compute; reflexivity.
  - apply (proj1 (calls_follow_plan InMemory.env req InMemory.one_session)).
Defined.

(** The lookup fails for the session "locked", the request ends in a 500,
    and session "s1" shows what [process_query] left. *)
Lemma ask_writes_what_process_query_writes_witness :
  let req := POST_ask (Some "jobs?") (Some "locked") in
  lookups_stable InMemory.env /\
  status_code (serve InMemory.env req InMemory.one_session) = 500 /\
  lookup InMemory.env "s1" (after InMemory.env req InMemory.one_session)
  = lookup InMemory.env "s1"
      (snd (process_query InMemory.env "jobs?" "locked" InMemory.one_session)).
Proof.
  intros req. split; [exact in_memory_lookups_stable|].
  split; [vm_compute; reflexivity|].
  apply (ask_writes_what_process_query_writes InMemory.env
           in_memory_lookups_stable req "jobs?" "locked" "s1"
           InMemory.one_session).
  reflexivity.
Defined.

(** A question without a session id goes to "default_session" and leaves
    the history of "s1" as it was. *)
Lemma ask_leaves_other_sessions_witness :
  let req := POST_ask (Some "jobs?") None in
  sessions_apart InMemory.env /\ lookups_stable InMemory.env /\
  bind_parameters true req = CallAsk "jobs?" "default_session" /\
  serve InMemory.env (GET_history (Some "s1"))
    (after InMemory.env req InMemory.one_session)
  = serve InMemory.env (GET_history (Some "s1")) InMemory.one_session.
Proof.
  intros req. split; [exact in_memory_sessions_apart|].
  split; [exact in_memory_lookups_stable|]. split; [reflexivity|].
  apply (ask_leaves_other_sessions InMemory.env in_memory_sessions_apart
           in_memory_lookups_stable req "jobs?" "default_session" "s1"
           InMemory.one_session); [reflexivity | discriminate].
Defined.

Lemma history_grows_by_appending_witness :
  let reqs := [POST_ask (Some "a") (Some "s1"); GET_history None;
               POST_tts (Some "a") None None; POST_ask (Some "") (Some "s1");
               POST_ask (Some "b") (Some "s2"); GET_root;
               POST_ask (Some "c") (Some "s1")] in
  append_only InMemory.env /\ lookups_read_only InMemory.env /\
  history_transcript InMemory.env "s1" InMemory.one_session
    `prefix_of`
  history_transcript InMemory.env "s1"
    (after_all InMemory.env reqs InMemory.one_session).
Proof.
  intros reqs.
  split; [exact in_memory_append_only|].
  split; [exact in_memory_lookups_read_only|].
  apply (history_grows_by_appending InMemory.env in_memory_append_only
           in_memory_lookups_read_only reqs "s1" InMemory.one_session).
Defined.

Lemma quiet_runs_keep_history_witness :
  let reqs := [GET_history (Some "s1"); POST_tts (Some "hi") None None;
               GET_root; POST_ask None (Some "s1");
               GET_history (Some "locked");
               POST_tts (Some "hi") (Some "fr") None] in
  lookups_stable InMemory.env /\
  forallb (fun req => negb (reaches_process_query req)) reqs = true /\
  serve InMemory.env (GET_history (Some "s1"))
    (after_all InMemory.env reqs InMemory.one_session)
  = serve InMemory.env (GET_history (Some "s1")) InMemory.one_session.
Proof.
  intros reqs. split; [exact in_memory_lookups_stable|].
  split; [reflexivity|].
  apply (quiet_runs_keep_history InMemory.env in_memory_lookups_stable reqs
           (Some "s1") InMemory.one_session).
  reflexivity.
Defined.
